(** * Batched inference of molpal's MPNN wrapper

    Shallow embedding of [molpal/models/mpnn/predict.py]: the functions
    [predict] and [_predict].

    The Python code is a thin adapter around three external collaborators:
    the network ([model], an [nn.Module]), the data loader
    ([MoleculeDataLoader]) and the target scaler ([StandardScaler]).  They
    are kept abstract here (Section variables and record fields); what is
    embedded from the source is everything the two functions do themselves:
    building the dataset, switching the model to evaluation mode and moving
    it to the GPU, the [torch.no_grad()] block, the loop over the batches,
    [np.concatenate], the column slices [preds[:, 0::2]] and
    [preds[:, 1::2]], and the optional rescaling.

    Arrays are two-dimensional and hold elements of an abstract type [T]
    (the floating point numbers of numpy) with an abstract multiplication
    [mul]; theorems say which operation is applied to which element, not how
    a floating point product is rounded. *)

From Stdlib Require Import String.
From Stdlib Require Import List Arith Lia Bool ZArith.
Import ListNotations.

Set Implicit Arguments.

(** ** Exceptions and results *)

Inductive exn : Type :=
| ValueError.

Inductive result (A : Type) : Type :=
| Ok (a : A)
| Err (e : exn).

Arguments Ok {A} a.
Arguments Err {A} e.

(** ** Molecule data: [MoleculeDatapoint], [MoleculeDataset] *)

Record MoleculeDatapoint : Type := mkDatapoint { smiles : list string }.

Definition MoleculeDataset : Type := list MoleculeDatapoint.

(** ** Devices of [torch] *)

Inductive Device : Type :=
| CPU
| CUDA (index : nat).

(** ** Strided slices

    [stride step k l] keeps an element of [l], drops the next [step - 1],
    keeps one, and so on, after dropping the first [k]: for [1 <= step] it
    is Python's [l[k::step]]. *)

Fixpoint stride (A : Type) (step k : nat) (l : list A) : list A :=
  match l with
  | [] => []
  | x :: t =>
      match k with
      | 0 => x :: stride step (step - 1) t
      | S k' => stride step k' t
      end
  end.

(** Number of indices in Python's [range(start, stop, 2)]. *)
Definition range2_len (start stop : nat) : nat := (stop - start + 1) / 2.

(** Two lists merged element by element, [l1[0]; l2[0]; l1[1]; l2[1]; ...]:
    what undoes the pair of slices [l[0::2]] and [l[1::2]]. *)
Fixpoint interleave (A : Type) (l1 l2 : list A) : list A :=
  match l1, l2 with
  | x :: t1, y :: t2 => x :: y :: interleave t1 t2
  | _, [] => l1
  | [], _ => l2
  end.

Section Arrays.

Variable T : Type.
Variable mul : T -> T -> T.

(** ** Two-dimensional arrays

    A numpy array of shape [(N, M)]: its [M] is kept apart from the rows,
    because an array with no row still has a column count. *)

Record ndarray : Type := mkArray { ncols : nat; rows : list (list T) }.

Definition nrows (a : ndarray) : nat := length (rows a).

(** Every row has the declared number of columns. *)
Definition wf (a : ndarray) : Prop :=
  Forall (fun r => length r = ncols a) (rows a).

(** Entry [(i, j)], when it exists. *)
Definition entry (a : ndarray) (i j : nat) : option T :=
  match nth_error (rows a) i with
  | Some r => nth_error r j
  | None => None
  end.

(** [np.concatenate(arrays)] along axis 0: it raises [ValueError] on an
    empty sequence and when the column counts differ. *)
Definition concatenate (arrays : list ndarray) : result ndarray :=
  match arrays with
  | [] => Err ValueError
  | a :: rest =>
      if forallb (fun b => ncols b =? ncols a) rest
      then Ok (mkArray (ncols a) (concat (map rows arrays)))
      else Err ValueError
  end.

(** [a[:, start::2]] *)
Definition cols_from (start : nat) (a : ndarray) : ndarray :=
  mkArray (range2_len start (ncols a)) (map (stride 2 start) (rows a)).

(** [v ** 2] on a one-dimensional array *)
Definition square (v : list T) : list T := map (fun s => mul s s) v.

(** Pairwise products of two lists, [v[j] * r[j]]. *)
Fixpoint mul_rows (v r : list T) : list T :=
  match v, r with
  | s :: v', x :: r' => mul s x :: mul_rows v' r'
  | _, _ => []
  end.

(** [v * a] for a one-dimensional [v] of length [K] and a two-dimensional
    [a] of shape [(N, V)], with numpy's broadcasting: the lengths must be
    equal, or one of them must be 1; otherwise [ValueError]. *)
Definition broadcast_mul (v : list T) (a : ndarray) : result ndarray :=
  let K := length v in
  let V := ncols a in
  if K =? V then Ok (mkArray V (map (mul_rows v) (rows a)))
  else if K =? 1 then
    Ok (mkArray V (map (fun r => flat_map (fun s => map (mul s) r) v) (rows a)))
  else if V =? 1 then
    Ok (mkArray K (map (fun r => flat_map (fun x => map (fun s => mul s x) v) r) (rows a)))
  else Err ValueError.

(** The array whose even-indexed columns are those of [evens] and whose
    odd-indexed columns are those of [odds]. *)
Definition merge_cols (evens odds : ndarray) : ndarray :=
  mkArray (ncols evens + ncols odds)
          (map (fun rr => interleave (fst rr) (snd rr))
               (combine (rows evens) (rows odds))).

(** ** The scaler

    [StandardScaler] lives in the vendored chemprop package; the code here
    only reads its [stds] and calls its [inverse_transform]. *)

Record StandardScaler : Type := mkScaler {
  stds : list T;
  inverse_transform : ndarray -> ndarray
}.

(** ** What [_predict] returns: one array, or the tuple
    [(means, variances)]. *)

Inductive Output : Type :=
| Single (preds : ndarray)
| Pair (means variances : ndarray).

End Arrays.

Arguments Single {T} preds.
Arguments Pair {T} means variances.

(** ** The model object and the interpreter state

    An [nn.Module] is a mutable object: its mode ([training]), the device
    its parameters live on and the parameters themselves.  [torch] has one
    more piece of state the code touches, the gradient mode, which
    [torch.no_grad()] switches off on entry and restores on exit.
    [forward_calls] is a log: one entry per call of the model, recording the
    two modes in force during the call. *)

Record Call : Type := mkCall { call_training : bool; call_grad : bool }.

Record World (Params : Type) : Type := mkWorld {
  training : bool;
  device : Device;
  parameters : Params;
  grad_enabled : bool;
  forward_calls : list Call
}.

Section Inference.

Variable T : Type.
Variable mul : T -> T -> T.

Variable Params : Type.
Variable BatchGraph : Type.

(** [batch.batch_graph()] of chemprop's [MoleculeDataset]. *)
Variable batch_graph : MoleculeDataset -> BatchGraph.

(** The network's forward pass, [model(batch_graph)], followed by
    [.data.cpu().numpy()], which changes no value.  Its result may depend
    on the mode and on the gradient mode, and a forward pass may leave
    other parameters behind (running statistics, for one). *)
Variable forward :
  forall (training grad : bool), Params -> BatchGraph -> ndarray T * Params.

(** [MoleculeDataLoader(dataset, batch_size, num_workers)], iterated: the
    batches it yields, each a [MoleculeDataset]. *)
Variable MoleculeDataLoader :
  MoleculeDataset -> forall (batch_size num_workers : nat), list MoleculeDataset.

Local Abbreviation World := (World Params).

(** [model.eval()] *)
Definition eval (w : World) : World :=
  mkWorld false (device w) (parameters w) (grad_enabled w) (forward_calls w).

(** [model.to(0)]: an [nn.Module] is moved in place and returned. *)
Definition to (index : nat) (w : World) : World :=
  mkWorld (training w) (CUDA index) (parameters w) (grad_enabled w)
          (forward_calls w).

Definition set_grad_enabled (b : bool) (w : World) : World :=
  mkWorld (training w) (device w) (parameters w) b (forward_calls w).

(** [model(batch_graph)] in the current modes. *)
Definition call_model (w : World) (g : BatchGraph) : ndarray T * World :=
  let '(out, p) := forward (training w) (grad_enabled w) (parameters w) g in
  (out,
   mkWorld (training w) (device w) p (grad_enabled w)
           (forward_calls w ++ [mkCall (training w) (grad_enabled w)])).

(** The [for batch in data_loader] loop of [_predict]; [pred_batches] is
    the list the loop appends to. *)
Fixpoint run_batches (w : World) (data_loader : list MoleculeDataset)
    (pred_batches : list (ndarray T)) : World * list (ndarray T) :=
  match data_loader with
  | [] => (w, pred_batches)
  | batch :: rest =>
      let g := batch_graph batch in
      let '(pred_batch, w') := call_model w g in
      run_batches w' rest (pred_batches ++ [pred_batch])
  end.

(** The [with torch.no_grad():] block around the loop. *)
Definition no_grad_loop (w : World) (data_loader : list MoleculeDataset)
    : World * list (ndarray T) :=
  let prev := grad_enabled w in
  let '(w', pred_batches) :=
    run_batches (set_grad_enabled false w) data_loader [] in
  (set_grad_enabled prev w', pred_batches).

(** [_predict(model, data_loader, uncertainty, disable, scaler)].
    [disable] only hides the progress bar. *)
Definition _predict (w : World) (data_loader : list MoleculeDataset)
    (uncertainty disable : bool) (scaler : option (StandardScaler T))
    : World * result (Output T) :=
  let w := eval w in
  let '(w, pred_batches) := no_grad_loop w data_loader in
  match concatenate pred_batches with
  | Err e => (w, Err e)
  | Ok preds =>
      if uncertainty then
        let means := cols_from 0 preds in
        let variances := cols_from 1 preds in
        match scaler with
        | Some sc =>
            let means := inverse_transform sc means in
            match broadcast_mul mul (square mul (stds sc)) variances with
            | Ok variances => (w, Ok (Pair means variances))
            | Err e => (w, Err e)
            end
        | None => (w, Ok (Pair means variances))
        end
      else
        match scaler with
        | Some sc => (w, Ok (Single (inverse_transform sc preds)))
        | None => (w, Ok (Single preds))
        end
  end.

(** The dataset of [predict]:
    [[MoleculeDatapoint(smiles=[smi]) for smi in smis]]. *)
Definition test_data (smis : list string) : MoleculeDataset :=
  map (fun smi => mkDatapoint [smi]) smis.

(** [predict(model, smis, batch_size, ncpu, uncertainty, scaler, use_gpu)] *)
Definition predict (w : World) (smis : list string) (batch_size ncpu : nat)
    (uncertainty : bool) (scaler : option (StandardScaler T))
    (use_gpu : bool) : World * result (Output T) :=
  let w := if use_gpu then to 0 w else w in
  let data_loader := MoleculeDataLoader (test_data smis) batch_size ncpu in
  _predict w data_loader uncertainty true scaler.

(** The raw model output of a run of [_predict]: the arrays the loop has
    collected. *)
Definition raw_batches (w : World) (data_loader : list MoleculeDataset)
    : list (ndarray T) :=
  snd (no_grad_loop (eval w) data_loader).

(** The loop without the bookkeeping: the outputs of the successive forward
    passes in modes [tr] and [g], and the parameters after the last one. *)
Fixpoint forward_all (tr g : bool) (p : Params)
    (data_loader : list MoleculeDataset) : list (ndarray T) * Params :=
  match data_loader with
  | [] => ([], p)
  | batch :: rest =>
      let '(out, p') := forward tr g p (batch_graph batch) in
      let '(outs, p'') := forward_all tr g p' rest in
      (out :: outs, p'')
  end.

(** ** Assumptions on the collaborators

    What the theorems below ask of the external parts, when they need it. *)

(** The loader yields the datapoints of the dataset once each, in the order
    of the dataset (no shuffling, nothing dropped). *)
Definition loader_in_order (dataset : MoleculeDataset)
    (batch_size num_workers : nat) : Prop :=
  concat (MoleculeDataLoader dataset batch_size num_workers) = dataset.

(** In inference mode the network emits, for a batch, a well-formed array
    with one row per datapoint and [M] columns. *)
Definition row_per_molecule (M : nat) : Prop :=
  forall (p : Params) (batch : MoleculeDataset),
    let out := fst (forward false false p (batch_graph batch)) in
    ncols out = M /\ nrows out = length batch /\ wf out.

(** A forward pass in evaluation mode with gradients disabled leaves the
    parameters as they are. *)
Definition inference_is_pure : Prop :=
  forall (p : Params) (g : BatchGraph), snd (forward false false p g) = p.

(** The scaler's inverse transform returns an array of the shape it got. *)
Definition keeps_shape (sc : StandardScaler T) : Prop :=
  forall a : ndarray T,
    nrows (inverse_transform sc a) = nrows a /\
    ncols (inverse_transform sc a) = ncols a.

End Inference.

(** ** Sample collaborators

    Concrete stand-ins for the external parts, over integer arrays, on which
    the definitions above can be run: a data loader that cuts the dataset
    into consecutive batches, a network that emits [M] numbers per molecule,
    and an affine scaler. *)

Module Sample.

(** Consecutive batches of [batch_size] datapoints, the last one possibly
    shorter; [acc] is the batch being filled, most recent first. *)
Fixpoint batches_from (batch_size : nat) (acc dataset : MoleculeDataset)
    : list MoleculeDataset :=
  match dataset with
  | [] => match acc with [] => [] | _ => [rev acc] end
  | d :: rest =>
      if length (d :: acc) =? batch_size
      then rev (d :: acc) :: batches_from batch_size [] rest
      else batches_from batch_size (d :: acc) rest
  end.

Definition loader (dataset : MoleculeDataset) (batch_size num_workers : nat)
    : list MoleculeDataset :=
  batches_from batch_size [] dataset.

Definition batch_graph (batch : MoleculeDataset) : list (list string) :=
  map smiles batch.

(** One output row: column [k] holds [(k + 1) * size + p], where [size] is
    the total length of the molecule's strings and [p] the parameter. *)
Definition row_of (M : nat) (p : Z) (mol : list string) : list Z :=
  let size := Z.of_nat (list_sum (map String.length mol)) in
  map (fun k => (Z.of_nat (S k) * size + p)%Z) (seq 0 M).

(** A network with [M] outputs per molecule.  In training mode a forward
    pass also bumps the parameter; in evaluation mode it does not. *)
Definition forward (M : nat) (training grad : bool) (p : Z)
    (g : list (list string)) : ndarray Z * Z :=
  (mkArray M (map (row_of M p) g), if training then (p + 1)%Z else p).

(** [x * std + mean], column by column. *)
Fixpoint affine (means sds r : list Z) : list Z :=
  match means, sds, r with
  | m :: means', s :: sds', x :: r' => (x * s + m)%Z :: affine means' sds' r'
  | _, _, _ => []
  end.

Definition scaler (means sds : list Z) : StandardScaler Z :=
  mkScaler sds (fun a => mkArray (ncols a) (map (affine means sds) (rows a))).

Definition world0 : World Z := mkWorld true CPU 5%Z true [].

Definition smis3 : list string := ["C"; "CC"; "CCO"]%string.

End Sample.

(** * Properties *)

(** ** Strided slices *)

Section StrideFacts.

Variable A : Type.

Lemma stride2_cons0 (x : A) (t : list A) :
  stride 2 0 (x :: t) = x :: stride 2 1 t.
Proof. reflexivity. Qed.

Lemma stride2_consS (k : nat) (x : A) (t : list A) :
  stride 2 (S k) (x :: t) = stride 2 k t.
Proof. reflexivity. Qed.

Lemma stride2_length (l : list A) :
  forall k, length (stride 2 k l) = range2_len k (length l).
Proof.
  unfold range2_len.
  induction l as [|x t IH]; intros k.
  - simpl. destruct k; reflexivity.
  - destruct k as [|k].
    + rewrite stride2_cons0. simpl length. rewrite IH.
      destruct (length t) as [|n]; [reflexivity|].
      replace (S n - 1 + 1) with (S n) by lia.
      replace (S (S n) - 0 + 1) with (S n + 1 * 2) by lia.
      rewrite Nat.div_add by discriminate. lia.
    + rewrite stride2_consS, IH. reflexivity.
Qed.

Lemma stride2_nth_error (l : list A) :
  forall k j, nth_error (stride 2 k l) j = nth_error l (k + 2 * j).
Proof.
  induction l as [|x t IH]; intros k j.
  - simpl. destruct j, (k + _); reflexivity.
  - destruct k as [|k].
    + rewrite stride2_cons0. destruct j as [|j]; [reflexivity|].
      simpl nth_error at 1. rewrite IH.
      replace (0 + 2 * S j) with (S (1 + 2 * j)) by lia. reflexivity.
    + rewrite stride2_consS, IH. reflexivity.
Qed.

End StrideFacts.

Lemma range2_len_even (M : nat) : range2_len 0 M = (M + 1) / 2.
Proof. unfold range2_len. now rewrite Nat.sub_0_r. Qed.

Lemma range2_len_odd (M : nat) : range2_len 1 M = M / 2.
Proof.
  unfold range2_len. destruct M as [|M]; [reflexivity|].
  now replace (S M - 1 + 1) with (S M) by lia.
Qed.

Lemma half_of_even (M : nat) :
  Nat.even M = true -> (M + 1) / 2 = M / 2.
Proof.
  intros H. apply Nat.even_spec in H. destruct H as [h ->].
  replace (2 * h + 1) with (1 + h * 2) by lia.
  rewrite Nat.div_add by discriminate.
  rewrite (Nat.mul_comm 2 h), Nat.div_mul by discriminate.
  reflexivity.
Qed.

Lemma half_of_odd (M : nat) :
  Nat.odd M = true -> (M + 1) / 2 = M / 2 + 1.
Proof.
  intros H. apply Nat.odd_spec in H. destruct H as [h ->].
  replace (2 * h + 1 + 1) with ((h + 1) * 2) by lia.
  rewrite Nat.div_mul by discriminate.
  replace (2 * h + 1) with (1 + h * 2) by lia.
  rewrite Nat.div_add by discriminate.
  reflexivity.
Qed.

(** ** Arrays *)

Section ArrayFacts.

Variable T : Type.
Variable mul : T -> T -> T.

Implicit Types (a preds : ndarray T) (arrays : list (ndarray T)).

Lemma entry_cols_from (s : nat) a (i j : nat) :
  entry (cols_from s a) i j = entry a i (s + 2 * j).
Proof.
  unfold entry, cols_from; simpl.
  rewrite nth_error_map.
  destruct (nth_error (rows a) i) as [r|]; simpl; [|reflexivity].
  apply stride2_nth_error.
Qed.

Lemma nrows_cols_from (s : nat) a : nrows (cols_from s a) = nrows a.
Proof. unfold nrows, cols_from; simpl. apply length_map. Qed.

Lemma wf_cols_from (s : nat) a : wf a -> wf (cols_from s a).
Proof.
  unfold wf, cols_from; simpl. intros H.
  apply Forall_map. revert H. apply Forall_impl.
  intros r <-. apply stride2_length.
Qed.

Lemma ncols_means a : ncols (cols_from 0 a) = (ncols a + 1) / 2.
Proof. apply range2_len_even. Qed.

Lemma ncols_variances a : ncols (cols_from 1 a) = ncols a / 2.
Proof. apply range2_len_odd. Qed.

Lemma concatenate_nil : concatenate (@nil (ndarray T)) = Err ValueError.
Proof. reflexivity. Qed.

Lemma concatenate_inv arrays preds :
  concatenate arrays = Ok preds ->
  arrays <> [] /\
  rows preds = concat (map (@rows T) arrays) /\
  Forall (fun b => ncols b = ncols preds) arrays.
Proof.
  destruct arrays as [|a rest]; simpl; [discriminate|].
  destruct (forallb _ rest) eqn:E; [|discriminate].
  intros [= <-]. simpl. split; [discriminate|]. split; [reflexivity|].
  constructor; [reflexivity|].
  rewrite forallb_forall in E. apply Forall_forall.
  intros b Hb. apply Nat.eqb_eq. auto.
Qed.

Lemma concatenate_ok (M : nat) arrays :
  arrays <> [] ->
  Forall (fun b => ncols b = M) arrays ->
  concatenate arrays = Ok (mkArray M (concat (map (@rows T) arrays))).
Proof.
  destruct arrays as [|a rest]; [congruence|].
  intros _ H. inversion H as [|? ? Ha Hrest]; subst. simpl.
  replace (forallb _ rest) with true; [reflexivity|].
  symmetry. apply forallb_forall. intros b Hb.
  rewrite Forall_forall in Hrest. apply Nat.eqb_eq. auto.
Qed.

Lemma concatenate_wf arrays preds :
  concatenate arrays = Ok preds -> Forall (@wf T) arrays -> wf preds.
Proof.
  intros H Hwf. destruct (concatenate_inv arrays H) as (_ & Hrows & Hcols).
  unfold wf. rewrite Hrows.
  clear H Hrows. induction arrays as [|a rest IH]; simpl; [constructor|].
  inversion Hwf; inversion Hcols; subst.
  apply Forall_app. split; [|auto].
  match goal with
  | Ha : wf a, Hc : ncols a = _ |- _ => unfold wf in Ha; rewrite Hc in Ha; exact Ha
  end.
Qed.

Lemma mul_rows_nth_error (v r : list T) :
  forall j s x,
    nth_error v j = Some s -> nth_error r j = Some x ->
    nth_error (mul_rows mul v r) j = Some (mul s x).
Proof.
  revert r. induction v as [|s0 v IH]; intros r j s x Hv Hr.
  - destruct j; discriminate.
  - destruct r as [|x0 r]; [destruct j; discriminate|].
    destruct j as [|j]; simpl in *.
    + congruence.
    + eauto.
Qed.

Lemma square_nth_error (v : list T) (j : nat) (s : T) :
  nth_error v j = Some s -> nth_error (square mul v) j = Some (mul s s).
Proof.
  intros H. unfold square. rewrite nth_error_map, H. reflexivity.
Qed.

Lemma broadcast_mul_same (v : list T) a :
  length v = ncols a ->
  broadcast_mul mul v a = Ok (mkArray (ncols a) (map (mul_rows mul v) (rows a))).
Proof.
  intros H. unfold broadcast_mul. rewrite H, Nat.eqb_refl. reflexivity.
Qed.

End ArrayFacts.

(** ** The inference loop *)

Section LoopFacts.

Variable T : Type.
Variable Params : Type.
Variable BatchGraph : Type.
Variable batch_graph : MoleculeDataset -> BatchGraph.
Variable forward : bool -> bool -> Params -> BatchGraph -> ndarray T * Params.

Local Abbreviation run := (run_batches batch_graph forward).
Local Abbreviation outs := (forward_all batch_graph forward).

(** The loop appends the outputs of the forward passes, in the order of the
    batches, changes neither mode nor the device, and logs one call per
    batch. *)
Lemma run_batches_spec (data_loader : list MoleculeDataset) :
  forall (w : World Params) (acc : list (ndarray T)),
    run w data_loader acc =
    (mkWorld (training w) (device w)
             (snd (outs (training w) (grad_enabled w) (parameters w) data_loader))
             (grad_enabled w)
             (forward_calls w ++
              repeat (mkCall (training w) (grad_enabled w)) (length data_loader)),
     acc ++ fst (outs (training w) (grad_enabled w) (parameters w) data_loader)).
Proof.
  induction data_loader as [|batch rest IH]; intros w acc.
  - simpl. rewrite !app_nil_r. destruct w; reflexivity.
  - simpl. unfold call_model.
    destruct (forward (training w) (grad_enabled w) (parameters w)
                      (batch_graph batch)) as [out p] eqn:Ef.
    rewrite IH. simpl.
    destruct (outs (training w) (grad_enabled w) p rest) as [os p'].
    simpl. rewrite <- !app_assoc. reflexivity.
Qed.

Lemma no_grad_loop_spec (w : World Params) (data_loader : list MoleculeDataset) :
  no_grad_loop batch_graph forward w data_loader =
  (mkWorld (training w) (device w)
           (snd (outs (training w) false (parameters w) data_loader))
           (grad_enabled w)
           (forward_calls w ++
            repeat (mkCall (training w) false) (length data_loader)),
   fst (outs (training w) false (parameters w) data_loader)).
Proof.
  unfold no_grad_loop. rewrite run_batches_spec. reflexivity.
Qed.

Lemma raw_batches_spec (w : World Params) (data_loader : list MoleculeDataset) :
  raw_batches batch_graph forward w data_loader =
  fst (outs false false (parameters w) data_loader).
Proof.
  unfold raw_batches. rewrite no_grad_loop_spec. reflexivity.
Qed.

Lemma forward_all_length (tr g : bool) (data_loader : list MoleculeDataset) :
  forall p, length (fst (outs tr g p data_loader)) = length data_loader.
Proof.
  induction data_loader as [|batch rest IH]; intros p; simpl; [reflexivity|].
  destruct (forward tr g p (batch_graph batch)) as [out p'].
  specialize (IH p'). destruct (outs tr g p' rest) as [os p''].
  simpl in *. now rewrite IH.
Qed.

(** Parameters are untouched when inference-mode passes are pure. *)
Lemma forward_all_pure (data_loader : list MoleculeDataset) :
  inference_is_pure forward ->
  forall p, snd (outs false false p data_loader) = p.
Proof.
  intros Hpure.
  induction data_loader as [|batch rest IH]; intros p; simpl; [reflexivity|].
  pose proof (Hpure p (batch_graph batch)) as Hp.
  destruct (forward false false p (batch_graph batch)) as [out p'].
  simpl in Hp; subst p'.
  specialize (IH p). destruct (outs false false p rest) as [os p''].
  exact IH.
Qed.

(** One output array per batch, each with a row per datapoint. *)
Lemma forward_all_rows (M : nat) (data_loader : list MoleculeDataset) :
  row_per_molecule batch_graph forward M ->
  forall p,
    Forall2 (fun batch out => nrows out = length batch)
            data_loader (fst (outs false false p data_loader)) /\
    Forall (fun out => ncols out = M) (fst (outs false false p data_loader)) /\
    Forall (@wf T) (fst (outs false false p data_loader)).
Proof.
  intros Hrow.
  induction data_loader as [|batch rest IH]; intros p; simpl.
  - repeat split; constructor.
  - destruct (Hrow p batch) as (Hc & Hn & Hw).
    destruct (forward false false p (batch_graph batch)) as [out p'].
    destruct (IH p') as (H2 & Hcs & Hws).
    destruct (outs false false p' rest) as [os p'']. simpl in *.
    repeat split; constructor; assumption.
Qed.

Lemma concat_rows_length (batches : list MoleculeDataset) :
  forall arrays : list (ndarray T),
    Forall2 (fun batch out => nrows out = length batch) batches arrays ->
    length (concat (map (@rows T) arrays)) = length (concat batches).
Proof.
  induction batches as [|b bs IH]; intros arrays H; inversion H; subst.
  - reflexivity.
  - simpl. rewrite !length_app. f_equal; [assumption|]. apply IH. assumption.
Qed.


End LoopFacts.

(** ** [_predict] and [predict] *)

Section PredictFacts.

Variable T : Type.
Variable mul : T -> T -> T.
Variable Params : Type.
Variable BatchGraph : Type.
Variable batch_graph : MoleculeDataset -> BatchGraph.
Variable forward : bool -> bool -> Params -> BatchGraph -> ndarray T * Params.
Variable MoleculeDataLoader :
  MoleculeDataset -> nat -> nat -> list MoleculeDataset.

Local Abbreviation _predict' := (_predict mul batch_graph forward).
Local Abbreviation predict' := (predict mul batch_graph forward MoleculeDataLoader).
Local Abbreviation raw := (raw_batches batch_graph forward).

(** The state [_predict] leaves behind, whatever it returns. *)
Lemma _predict_world (w : World Params) (data_loader : list MoleculeDataset)
    (uncertainty disable : bool) (scaler : option (StandardScaler T)) :
  fst (_predict' w data_loader uncertainty disable scaler) =
  mkWorld false (device w)
          (snd (forward_all batch_graph forward false false (parameters w)
                            data_loader))
          (grad_enabled w)
          (forward_calls w ++ repeat (mkCall false false) (length data_loader)).
Proof.
  unfold _predict. rewrite no_grad_loop_spec. simpl.
  destruct (concatenate _) as [preds|e]; [|reflexivity].
  destruct uncertainty, scaler as [sc|]; try reflexivity.
  destruct (broadcast_mul _ _ _); reflexivity.
Qed.

(** What [_predict] returns, in terms of the raw model output. *)
Lemma _predict_result (w : World Params) (data_loader : list MoleculeDataset)
    (uncertainty disable : bool) (scaler : option (StandardScaler T)) :
  snd (_predict' w data_loader uncertainty disable scaler) =
  match concatenate (raw w data_loader) with
  | Err e => Err e
  | Ok preds =>
      if uncertainty then
        match scaler with
        | Some sc =>
            match broadcast_mul mul (square mul (stds sc)) (cols_from 1 preds) with
            | Ok variances =>
                Ok (Pair (inverse_transform sc (cols_from 0 preds)) variances)
            | Err e => Err e
            end
        | None => Ok (Pair (cols_from 0 preds) (cols_from 1 preds))
        end
      else
        match scaler with
        | Some sc => Ok (Single (inverse_transform sc preds))
        | None => Ok (Single preds)
        end
  end.
Proof.
  unfold _predict, raw_batches.
  destruct (no_grad_loop batch_graph forward (eval w) data_loader)
    as [w' pred_batches]. simpl.
  destruct (concatenate pred_batches) as [preds|e]; [|reflexivity].
  destruct uncertainty, scaler as [sc|]; try reflexivity.
  destruct (broadcast_mul _ _ _); reflexivity.
Qed.

Lemma raw_to (w : World Params) (index : nat)
    (data_loader : list MoleculeDataset) :
  raw (to index w) data_loader = raw w data_loader.
Proof. rewrite !raw_batches_spec. reflexivity. Qed.

Lemma predict_unfold (w : World Params) (smis : list string)
    (batch_size ncpu : nat) (uncertainty : bool)
    (scaler : option (StandardScaler T)) (use_gpu : bool) :
  predict' w smis batch_size ncpu uncertainty scaler use_gpu =
  _predict' (if use_gpu then to 0 w else w)
            (MoleculeDataLoader (test_data smis) batch_size ncpu)
            uncertainty true scaler.
Proof. reflexivity. Qed.

Lemma raw_gpu (w : World Params) (use_gpu : bool)
    (data_loader : list MoleculeDataset) :
  raw (if use_gpu then to 0 w else w) data_loader = raw w data_loader.
Proof. destruct use_gpu; [apply raw_to | reflexivity]. Qed.

(** With a loader that keeps the order and a network that emits a row per
    molecule, the raw output of a non-empty input concatenates, to an array
    with one row per input string. *)
Lemma raw_concatenates (w : World Params) (smis : list string)
    (batch_size ncpu M : nat) :
  smis <> [] ->
  loader_in_order MoleculeDataLoader (test_data smis) batch_size ncpu ->
  row_per_molecule batch_graph forward M ->
  let batches := MoleculeDataLoader (test_data smis) batch_size ncpu in
  exists preds,
    concatenate (raw w batches) = Ok preds /\
    rows preds = concat (map (@rows T) (raw w batches)) /\
    nrows preds = length smis /\ ncols preds = M /\ wf preds /\
    Forall2 (fun batch out => nrows out = length batch) batches (raw w batches).
Proof.
  intros Hne Hord Hrow batches.
  unfold loader_in_order in Hord. fold batches in Hord.
  rewrite raw_batches_spec.
  destruct (forward_all_rows batches Hrow (parameters w)) as (H2 & Hc & Hw).
  set (arrays := fst (forward_all batch_graph forward false false
                                  (parameters w) batches)) in *.
  assert (Harr : arrays <> []).
  { intros E. rewrite E in H2. inversion H2 as [Hb|]; subst.
    rewrite <- Hb in Hord. simpl in Hord.
    destruct smis; [congruence | discriminate]. }
  exists (mkArray M (concat (map (@rows T) arrays))).
  split; [apply concatenate_ok; assumption|].
  split; [reflexivity|].
  split.
  { unfold nrows; simpl. rewrite (concat_rows_length H2), Hord.
    unfold test_data. apply length_map. }
  split; [reflexivity|].
  split; [|exact H2].
  apply (@concatenate_wf T arrays); [apply concatenate_ok; assumption | exact Hw].
Qed.

(** C1 (amended): with the uncertainty flag set, [_predict] splits the
    concatenated raw output [preds] (N rows, M columns) into [means], its
    columns 0, 2, 4, ..., and [variances], its columns 1, 3, 5, ...; for
    even M each is a well-formed N x (M/2) array.  Without a scaler the
    value returned is the pair of these two slices.  With a scaler it is
    not: the run returns the pair of the inverse-transformed means and the
    rescaled variances, or fails with the error of the product
    [scaler.stds**2 * variances]. *)
Theorem predict_uncertainty_no_scaler_splits_columns
    (w : World Params) (data_loader : list MoleculeDataset) (disable : bool)
    (preds : ndarray T) :
  concatenate (raw w data_loader) = Ok preds ->
  wf preds ->
  Nat.even (ncols preds) = true ->
  let means := cols_from 0 preds in
  let variances := cols_from 1 preds in
  (forall i j, entry means i j = entry preds i (2 * j)) /\
  (forall i j, entry variances i j = entry preds i (2 * j + 1)) /\
  nrows means = nrows preds /\ ncols means = ncols preds / 2 /\ wf means /\
  nrows variances = nrows preds /\ ncols variances = ncols preds / 2 /\
  wf variances /\
  snd (_predict' w data_loader true disable None) =
  Ok (Pair means variances) /\
  (forall sc : StandardScaler T,
      snd (_predict' w data_loader true disable (Some sc)) =
      match broadcast_mul mul (square mul (stds sc)) variances with
      | Ok scaled => Ok (Pair (inverse_transform sc means) scaled)
      | Err e => Err e
      end).
Proof.
  intros Hcat Hwf Heven means variances.
  split; [intros i j; apply (entry_cols_from 0)|].
  split; [intros i j; rewrite Nat.add_comm; apply (entry_cols_from 1)|].
  split; [apply nrows_cols_from|].
  split; [unfold means; rewrite ncols_means; now apply half_of_even|].
  split; [now apply wf_cols_from|].
  split; [apply nrows_cols_from|].
  split; [apply ncols_variances|].
  split; [now apply wf_cols_from|].
  split; [|intros sc]; rewrite _predict_result, Hcat; reflexivity.
Qed.

(** C2: with the uncertainty flag set and a scaler whose [stds] has one
    entry per variance column, [_predict] returns the pair of the scaler's
    inverse transform of the mean columns and of the variance columns
    multiplied entry by entry by the squared standard deviations:
    entry (i, j) of the variances is [stds[j] * stds[j] * preds[i, 2j+1]]. *)
Theorem predict_uncertainty_rescales
    (w : World Params) (data_loader : list MoleculeDataset) (disable : bool)
    (sc : StandardScaler T) (preds : ndarray T) :
  concatenate (raw w data_loader) = Ok preds ->
  length (stds sc) = ncols preds / 2 ->
  exists variances : ndarray T,
    snd (_predict' w data_loader true disable (Some sc)) =
    Ok (Pair (inverse_transform sc (cols_from 0 preds)) variances) /\
    nrows variances = nrows preds /\
    ncols variances = ncols preds / 2 /\
    rows variances =
    map (mul_rows mul (square mul (stds sc))) (rows (cols_from 1 preds)) /\
    (forall i j s x,
        nth_error (stds sc) j = Some s ->
        entry preds i (2 * j + 1) = Some x ->
        entry variances i j = Some (mul (mul s s) x)).
Proof.
  intros Hcat Hlen.
  assert (Hsq : length (square mul (stds sc)) = ncols (cols_from 1 preds)).
  { unfold square. rewrite length_map, ncols_variances. exact Hlen. }
  eexists. split.
  { rewrite _predict_result, Hcat, (broadcast_mul_same mul _ _ Hsq).
    reflexivity. }
  split; [unfold nrows; simpl; now rewrite !length_map|].
  split; [simpl; apply range2_len_odd|].
  split; [reflexivity|].
  intros i j s x Hs Hx.
  unfold entry in *. simpl. rewrite !nth_error_map.
  destruct (nth_error (rows preds) i) as [r|]; [simpl|discriminate].
  apply mul_rows_nth_error.
  - now apply square_nth_error.
  - rewrite stride2_nth_error, Nat.add_comm. exact Hx.
Qed.

(** C3: with the uncertainty flag unset and a scaler, [predict] on a
    non-empty list of N strings returns one array, the scaler's inverse
    transform of the concatenated raw output; the raw output is N x M, and
    so is the result when the inverse transform keeps the shape. *)
Theorem predict_inverse_scaled
    (w : World Params) (smis : list string) (batch_size ncpu M : nat)
    (sc : StandardScaler T) (use_gpu : bool) :
  smis <> [] ->
  loader_in_order MoleculeDataLoader (test_data smis) batch_size ncpu ->
  row_per_molecule batch_graph forward M ->
  keeps_shape sc ->
  exists preds out : ndarray T,
    concatenate
      (raw w (MoleculeDataLoader (test_data smis) batch_size ncpu)) = Ok preds /\
    nrows preds = length smis /\ ncols preds = M /\
    snd (predict' w smis batch_size ncpu false (Some sc) use_gpu) =
    Ok (Single out) /\
    out = inverse_transform sc preds /\
    nrows out = length smis /\ ncols out = M.
Proof.
  intros Hne Hord Hrow Hshape.
  destruct (raw_concatenates w Hne Hord Hrow)
    as (preds & Hcat & _ & Hn & Hc & _ & _).
  exists preds, (inverse_transform sc preds).
  split; [exact Hcat|]. split; [exact Hn|]. split; [exact Hc|].
  split.
  { rewrite predict_unfold, _predict_result, raw_gpu, Hcat. reflexivity. }
  split; [reflexivity|].
  destruct (Hshape preds) as [Hr Hk]. now rewrite Hr, Hk.
Qed.

(** C4: without a scaler [_predict] returns the concatenated raw output as
    it is: the array itself when the uncertainty flag is unset, the pair of
    its even-indexed and odd-indexed columns when it is set. *)
Theorem predict_without_scaler_is_raw
    (w : World Params) (data_loader : list MoleculeDataset) (disable : bool)
    (preds : ndarray T) :
  concatenate (raw w data_loader) = Ok preds ->
  snd (_predict' w data_loader false disable None) = Ok (Single preds) /\
  snd (_predict' w data_loader true disable None) =
  Ok (Pair (cols_from 0 preds) (cols_from 1 preds)) /\
  (forall i j, entry (cols_from 0 preds) i j = entry preds i (2 * j)) /\
  (forall i j, entry (cols_from 1 preds) i j = entry preds i (2 * j + 1)).
Proof.
  intros Hcat.
  split; [rewrite _predict_result, Hcat; reflexivity|].
  split; [rewrite _predict_result, Hcat; reflexivity|].
  split; [intros i j; apply (entry_cols_from 0)|].
  intros i j; rewrite Nat.add_comm; apply (entry_cols_from 1).
Qed.

(** C5: [predict] hands the loader a dataset with exactly one datapoint per
    input string, the datapoint of the i-th string [smi] being the
    one-molecule list [[smi]], in the order of the input. *)
Theorem predict_dataset_one_datapoint_per_smiles
    (w : World Params) (smis : list string) (batch_size ncpu : nat)
    (uncertainty : bool) (scaler : option (StandardScaler T)) (use_gpu : bool) :
  predict' w smis batch_size ncpu uncertainty scaler use_gpu =
  _predict' (if use_gpu then to 0 w else w)
            (MoleculeDataLoader (test_data smis) batch_size ncpu)
            uncertainty true scaler /\
  length (test_data smis) = length smis /\
  (forall i,
      nth_error (test_data smis) i =
      option_map (fun smi => mkDatapoint [smi]) (nth_error smis i)) /\
  concat (map smiles (test_data smis)) = smis.
Proof.
  split; [reflexivity|].
  split; [apply length_map|].
  split; [intros i; apply nth_error_map|].
  induction smis as [|smi rest IH]; simpl; [reflexivity | now rewrite IH].
Qed.


(** C7: every forward pass of [_predict] runs in evaluation mode with
    gradients disabled (the call log grows by one such entry per batch), the
    gradient mode is back to what it was afterwards, and, such passes being
    pure, the parameters of the model are what they were before. *)
Theorem predict_is_inference_only
    (w : World Params) (data_loader : list MoleculeDataset)
    (uncertainty disable : bool) (scaler : option (StandardScaler T)) :
  inference_is_pure forward ->
  let w' := fst (_predict' w data_loader uncertainty disable scaler) in
  forward_calls w' =
  forward_calls w ++ repeat (mkCall false false) (length data_loader) /\
  parameters w' = parameters w /\
  grad_enabled w' = grad_enabled w.
Proof.
  intros Hpure w'. unfold w'. rewrite _predict_world. simpl.
  split; [reflexivity|]. split; [|reflexivity].
  now apply forward_all_pure.
Qed.

(** C8: on the empty input the loader yields no batch, [np.concatenate]
    gets an empty list and raises: [predict] fails with [ValueError] instead
    of returning an empty array. *)
Theorem predict_empty_input_fails
    (w : World Params) (batch_size ncpu : nat) (uncertainty : bool)
    (scaler : option (StandardScaler T)) (use_gpu : bool) :
  MoleculeDataLoader [] batch_size ncpu = [] ->
  snd (predict' w [] batch_size ncpu uncertainty scaler use_gpu) =
  Err ValueError.
Proof.
  intros Hempty.
  rewrite predict_unfold, _predict_result. simpl test_data.
  rewrite Hempty, raw_batches_spec. reflexivity.
Qed.

(** C9: with the uncertainty flag set and an odd number M of raw columns the
    slicing goes through all the same: the means have (M+1)/2 columns, the
    variances M/2 (rounded down), one column less. *)
Theorem predict_odd_columns_uneven_split
    (w : World Params) (data_loader : list MoleculeDataset) (disable : bool)
    (preds : ndarray T) :
  concatenate (raw w data_loader) = Ok preds ->
  wf preds ->
  Nat.odd (ncols preds) = true ->
  exists means variances : ndarray T,
    snd (_predict' w data_loader true disable None) =
    Ok (Pair means variances) /\
    means = cols_from 0 preds /\ variances = cols_from 1 preds /\
    ncols means = (ncols preds + 1) / 2 /\
    ncols variances = ncols preds / 2 /\
    ncols means = ncols variances + 1 /\
    nrows means = nrows preds /\ nrows variances = nrows preds /\
    wf means /\ wf variances.
Proof.
  intros Hcat Hwf Hodd.
  exists (cols_from 0 preds), (cols_from 1 preds).
  split; [rewrite _predict_result, Hcat; reflexivity|].
  split; [reflexivity|]. split; [reflexivity|].
  split; [apply ncols_means|].
  split; [apply ncols_variances|].
  split; [rewrite ncols_means, ncols_variances; now apply half_of_odd|].
  split; [apply nrows_cols_from|]. split; [apply nrows_cols_from|].
  split; now apply wf_cols_from.
Qed.

(** C10: whatever [predict] returns, it leaves the model in evaluation
    mode, and on GPU 0 when [use_gpu] is set (where it was otherwise). *)
Theorem predict_leaves_model_in_eval_mode
    (w : World Params) (smis : list string) (batch_size ncpu : nat)
    (uncertainty : bool) (scaler : option (StandardScaler T)) (use_gpu : bool) :
  let w' := fst (predict' w smis batch_size ncpu uncertainty scaler use_gpu) in
  training w' = false /\
  device w' = (if use_gpu then CUDA 0 else device w).
Proof.
  intros w'. unfold w'. rewrite predict_unfold, _predict_world. simpl.
  split; [reflexivity|]. destruct use_gpu; reflexivity.
Qed.

End PredictFacts.

(** ** Further properties of [_predict] and [predict] *)

Section SplitFacts.

Variable A : Type.

(** Merging the two slices of a list gives the list back. *)
Lemma interleave_stride (l : list A) :
  interleave (stride 2 0 l) (stride 2 1 l) = l /\
  forall x, interleave (stride 2 0 (x :: l)) (stride 2 1 (x :: l)) = x :: l.
Proof.
  induction l as [|y t [IH0 IH1]].
  - split; [reflexivity | intros x; reflexivity].
  - split; [apply IH1|].
    intros x. rewrite stride2_cons0, !stride2_consS, stride2_cons0.
    simpl interleave. now rewrite IH0.
Qed.

End SplitFacts.

Lemma halves_sum (M : nat) : range2_len 0 M + range2_len 1 M = M.
Proof.
  rewrite range2_len_even, range2_len_odd.
  destruct (Nat.even M) eqn:E.
  - rewrite (half_of_even M E).
    apply Nat.even_spec in E. destruct E as [h ->].
    rewrite (Nat.mul_comm 2 h), Nat.div_mul by discriminate. lia.
  - assert (O : Nat.odd M = true) by (unfold Nat.odd; now rewrite E).
    rewrite (half_of_odd M O).
    apply Nat.odd_spec in O. destruct O as [h ->].
    replace (2 * h + 1) with (1 + h * 2) by lia.
    rewrite Nat.div_add by discriminate. simpl (1 / 2). lia.
Qed.

Section MoreFacts.

Variable T : Type.
Variable mul : T -> T -> T.
Variable Params : Type.
Variable BatchGraph : Type.
Variable batch_graph : MoleculeDataset -> BatchGraph.
Variable forward : bool -> bool -> Params -> BatchGraph -> ndarray T * Params.
Variable MoleculeDataLoader :
  MoleculeDataset -> nat -> nat -> list MoleculeDataset.

Local Abbreviation _predict' := (_predict mul batch_graph forward).
Local Abbreviation predict' := (predict mul batch_graph forward MoleculeDataLoader).
Local Abbreviation raw := (raw_batches batch_graph forward).
Local Abbreviation outs := (forward_all batch_graph forward).

Lemma merge_cols_split (a : ndarray T) :
  merge_cols (cols_from 0 a) (cols_from 1 a) = a.
Proof.
  destruct a as [M rs]. unfold merge_cols, cols_from; simpl.
  rewrite halves_sum. f_equal.
  induction rs as [|r rs IH]; simpl; [reflexivity|].
  rewrite IH. f_equal. apply interleave_stride.
Qed.

Lemma mul_rows_length (v r : list T) :
  length (mul_rows mul v r) = Nat.min (length v) (length r).
Proof.
  revert r. induction v as [|s v IH]; intros [|x r]; simpl; auto.
Qed.

Lemma forward_all_app (l1 l2 : list MoleculeDataset) :
  inference_is_pure forward ->
  forall p,
    fst (outs false false p (l1 ++ l2)) =
    fst (outs false false p l1) ++ fst (outs false false p l2).
Proof.
  intros Hpure.
  induction l1 as [|batch rest IH]; intros p; simpl; [reflexivity|].
  pose proof (Hpure p (batch_graph batch)) as Hp.
  destruct (forward false false p (batch_graph batch)) as [out p'].
  simpl in Hp; subst p'.
  specialize (IH p).
  destruct (outs false false p (rest ++ l2)) as [os q].
  destruct (outs false false p rest) as [os1 q1].
  simpl in *. now rewrite IH.
Qed.

Lemma forward_all_arrays (M : nat) (f : Params -> MoleculeDatapoint -> list T)
    (data_loader : list MoleculeDataset) :
  inference_is_pure forward ->
  (forall p batch,
      fst (forward false false p (batch_graph batch)) =
      mkArray M (map (f p) batch)) ->
  forall p,
    fst (outs false false p data_loader) =
    map (fun batch => mkArray M (map (f p) batch)) data_loader.
Proof.
  intros Hpure Hpt.
  induction data_loader as [|batch rest IH]; intros p; simpl; [reflexivity|].
  pose proof (Hpure p (batch_graph batch)) as Hp.
  pose proof (Hpt p batch) as Hr.
  destruct (forward false false p (batch_graph batch)) as [out p'].
  simpl in Hp, Hr; subst p' out.
  specialize (IH p). destruct (outs false false p rest) as [os q].
  simpl in *. now rewrite IH.
Qed.

(** X1: without a scaler the uncertainty split loses nothing: merging the
    returned [means] and [variances] column by column gives the concatenated
    raw output back, each raw column landing in exactly one of the two. *)
Theorem predict_split_is_lossless
    (w : World Params) (data_loader : list MoleculeDataset) (disable : bool)
    (preds : ndarray T) :
  concatenate (raw w data_loader) = Ok preds ->
  exists means variances : ndarray T,
    snd (_predict' w data_loader true disable None) =
    Ok (Pair means variances) /\
    merge_cols means variances = preds /\
    ncols means + ncols variances = ncols preds.
Proof.
  intros Hcat.
  exists (cols_from 0 preds), (cols_from 1 preds).
  split; [rewrite _predict_result, Hcat; reflexivity|].
  split; [apply merge_cols_split | apply halves_sum].
Qed.

(** X2: the shape of the returned value is fixed by the uncertainty flag:
    with the flag set [_predict] never returns a single array, with the flag
    unset it never returns a pair. *)
Theorem predict_output_kind
    (w : World Params) (data_loader : list MoleculeDataset) (disable : bool)
    (scaler : option (StandardScaler T)) :
  (forall a, snd (_predict' w data_loader true disable scaler) <> Ok (Single a)) /\
  (forall m v,
      snd (_predict' w data_loader false disable scaler) <> Ok (Pair m v)).
Proof.
  split; intros; rewrite _predict_result;
    destruct (concatenate _) as [preds|e]; try discriminate;
    destruct scaler as [sc|]; try discriminate.
  destruct (broadcast_mul _ _ _); discriminate.
Qed.

(** X3: when two batch outputs differ in their number of columns,
    [np.concatenate] raises and [_predict] fails with [ValueError], whatever
    the flag and the scaler. *)
Theorem predict_mixed_widths_fail
    (w : World Params) (data_loader : list MoleculeDataset)
    (uncertainty disable : bool) (scaler : option (StandardScaler T))
    (a b : ndarray T) :
  In a (raw w data_loader) ->
  In b (raw w data_loader) ->
  ncols a <> ncols b ->
  snd (_predict' w data_loader uncertainty disable scaler) = Err ValueError.
Proof.
  intros Ha Hb Hne. rewrite _predict_result.
  destruct (concatenate (raw w data_loader)) as [preds|e] eqn:Hcat.
  - destruct (concatenate_inv _ Hcat) as (_ & _ & Hall).
    rewrite Forall_forall in Hall.
    exfalso. apply Hne. now rewrite (Hall a Ha), (Hall b Hb).
  - now destruct e.
Qed.

(** X4: with the uncertainty flag set and a scaler whose [stds] has neither
    one entry per variance column nor a single entry, while there are
    several variance columns, the product [scaler.stds**2 * variances] cannot
    be broadcast: [_predict] fails with [ValueError]. *)
Theorem predict_stds_mismatch_fails
    (w : World Params) (data_loader : list MoleculeDataset) (disable : bool)
    (sc : StandardScaler T) (preds : ndarray T) :
  concatenate (raw w data_loader) = Ok preds ->
  length (stds sc) <> ncols preds / 2 ->
  length (stds sc) <> 1 ->
  ncols preds / 2 <> 1 ->
  snd (_predict' w data_loader true disable (Some sc)) = Err ValueError.
Proof.
  intros Hcat HK H1 HV.
  rewrite _predict_result, Hcat. unfold broadcast_mul.
  replace (length (square mul (stds sc))) with (length (stds sc))
    by (unfold square; now rewrite length_map).
  rewrite ncols_variances.
  apply Nat.eqb_neq in HK, H1, HV. now rewrite HK, H1, HV.
Qed.

(** X5: with the uncertainty flag set and a scaler that holds a single
    standard deviation [s] while the model emits several variance columns,
    nothing fails: numpy broadcasts, and every variance, whatever its column,
    is multiplied by [s * s]. *)
Theorem predict_single_std_scales_all
    (w : World Params) (data_loader : list MoleculeDataset) (disable : bool)
    (sc : StandardScaler T) (preds : ndarray T) (s : T) :
  concatenate (raw w data_loader) = Ok preds ->
  stds sc = [s] ->
  ncols preds / 2 <> 1 ->
  exists variances : ndarray T,
    snd (_predict' w data_loader true disable (Some sc)) =
    Ok (Pair (inverse_transform sc (cols_from 0 preds)) variances) /\
    ncols variances = ncols preds / 2 /\
    nrows variances = nrows preds /\
    (forall i j x,
        entry preds i (2 * j + 1) = Some x ->
        entry variances i j = Some (mul (mul s s) x)).
Proof.
  intros Hcat Hs HV.
  assert (E1 : (1 =? ncols (cols_from 1 preds)) = false).
  { apply Nat.eqb_neq. rewrite ncols_variances. congruence. }
  eexists. split.
  { rewrite _predict_result, Hcat. unfold broadcast_mul.
    rewrite Hs. simpl length. rewrite E1. simpl. reflexivity. }
  split; [apply range2_len_odd|].
  split; [unfold nrows; simpl; now rewrite !length_map|].
  intros i j x Hx. unfold entry in *. simpl.
  rewrite !nth_error_map.
  destruct (nth_error (rows preds) i) as [r|]; [simpl|discriminate].
  rewrite app_nil_r, nth_error_map, stride2_nth_error, Nat.add_comm, Hx.
  reflexivity.
Qed.

(** X6: with the uncertainty flag set, two raw columns (one mean column,
    one variance column) and a scaler with K <> 1 standard deviations, the
    product [scaler.stds**2 * variances] does not fail: the variance column
    is broadcast against all of them and the returned variances have K
    columns, entry (i, k) being [stds[k] * stds[k] * preds[i, 1]].  The
    inverse transform of the one-column means is taken as returning. *)
Theorem predict_single_variance_column_widens
    (w : World Params) (data_loader : list MoleculeDataset) (disable : bool)
    (sc : StandardScaler T) (preds : ndarray T) :
  concatenate (raw w data_loader) = Ok preds ->
  wf preds ->
  ncols preds = 2 ->
  length (stds sc) <> 1 ->
  exists variances : ndarray T,
    snd (_predict' w data_loader true disable (Some sc)) =
    Ok (Pair (inverse_transform sc (cols_from 0 preds)) variances) /\
    ncols (cols_from 0 preds) = 1 /\
    ncols variances = length (stds sc) /\
    (forall i k s x,
        nth_error (stds sc) k = Some s ->
        entry preds i 1 = Some x ->
        entry variances i k = Some (mul (mul s s) x)).
Proof.
  intros Hcat Hwf HM HK.
  assert (HV : ncols preds / 2 = 1) by (rewrite HM; reflexivity).
  assert (Hlen : length (square mul (stds sc)) = length (stds sc))
    by (unfold square; now rewrite length_map).
  assert (EV : ncols (cols_from 1 preds) = 1)
    by (now rewrite ncols_variances).
  assert (E1 : (length (stds sc) =? 1) = false) by now apply Nat.eqb_neq.
  eexists. split.
  { rewrite _predict_result, Hcat. unfold broadcast_mul.
    rewrite Hlen, EV, E1. simpl. reflexivity. }
  split; [rewrite ncols_means, HM; reflexivity|].
  split; [reflexivity|].
  intros i k s x Hs Hx. unfold entry in *. simpl.
  rewrite !nth_error_map.
  destruct (nth_error (rows preds) i) as [r|] eqn:Hr; [simpl|discriminate].
  assert (Hrl : length (stride 2 1 r) = 1).
  { rewrite stride2_length. unfold wf in Hwf. rewrite Forall_forall in Hwf.
    rewrite (Hwf r (nth_error_In _ _ Hr)), range2_len_odd. exact HV. }
  pose proof (stride2_nth_error r 1 0) as H0. simpl (1 + 2 * 0) in H0.
  rewrite Hx in H0.
  destruct (stride 2 1 r) as [|y [|z t]]; try discriminate.
  simpl in H0. injection H0 as ->.
  simpl. rewrite app_nil_r, nth_error_map.
  now rewrite (square_nth_error mul _ _ Hs).
Qed.

(** What [predict] returns depends on the model's parameters only. *)
Lemma predict_result_params (w1 w2 : World Params) (smis : list string)
    (batch_size ncpu : nat) (uncertainty : bool)
    (scaler : option (StandardScaler T)) (gpu1 gpu2 : bool) :
  parameters w1 = parameters w2 ->
  snd (predict' w1 smis batch_size ncpu uncertainty scaler gpu1) =
  snd (predict' w2 smis batch_size ncpu uncertainty scaler gpu2).
Proof.
  intros H.
  rewrite !predict_unfold, !_predict_result, !raw_gpu, !raw_batches_spec, H.
  reflexivity.
Qed.

(** X7: the value [predict] returns does not depend on the modes the model
    and torch were in before the call: whether the model was in training
    mode and whether gradients were enabled make no difference, because
    [_predict] switches to evaluation mode and disables gradients itself. *)
Theorem predict_ignores_initial_modes
    (w1 w2 : World Params) (smis : list string)
    (batch_size ncpu : nat) (uncertainty : bool)
    (scaler : option (StandardScaler T)) (use_gpu : bool) :
  parameters w1 = parameters w2 ->
  device w1 = device w2 ->
  snd (predict' w1 smis batch_size ncpu uncertainty scaler use_gpu) =
  snd (predict' w2 smis batch_size ncpu uncertainty scaler use_gpu).
Proof. intros H _. now apply predict_result_params. Qed.

(** X8: predictions do not interfere: when inference-mode forward passes are
    pure, a call of [predict] made after another call (same [use_gpu])
    returns what it would have returned had the earlier call not been
    made. *)
Theorem predict_is_repeatable
    (w : World Params) (smis1 smis2 : list string)
    (bs1 bs2 ncpu1 ncpu2 : nat) (u1 u2 : bool)
    (sc1 sc2 : option (StandardScaler T)) (use_gpu : bool) :
  inference_is_pure forward ->
  snd (predict' (fst (predict' w smis1 bs1 ncpu1 u1 sc1 use_gpu))
                smis2 bs2 ncpu2 u2 sc2 use_gpu) =
  snd (predict' w smis2 bs2 ncpu2 u2 sc2 use_gpu).
Proof.
  intros Hpure. apply predict_result_params.
  rewrite predict_unfold, _predict_world. simpl.
  rewrite forward_all_pure by exact Hpure. now destruct use_gpu.
Qed.

Lemma concat_rows_arrays (M : nat) (g : MoleculeDatapoint -> list T)
    (data_loader : list MoleculeDataset) :
  concat (map (@rows T)
              (map (fun batch => mkArray M (map g batch)) data_loader)) =
  map g (concat data_loader).
Proof.
  induction data_loader as [|b bs IH]; simpl; [reflexivity|].
  now rewrite map_app, IH.
Qed.

(** For a pure network that works molecule by molecule, the concatenated raw
    output is the array of the molecules' rows, however they were batched. *)
Lemma raw_of_pointwise (w : World Params) (M : nat)
    (f : Params -> MoleculeDatapoint -> list T)
    (dataset : MoleculeDataset) (data_loader : list MoleculeDataset) :
  dataset <> [] ->
  concat data_loader = dataset ->
  inference_is_pure forward ->
  (forall p batch,
      fst (forward false false p (batch_graph batch)) =
      mkArray M (map (f p) batch)) ->
  concatenate (raw w data_loader) =
  Ok (mkArray M (map (f (parameters w)) dataset)).
Proof.
  intros Hne Hord Hpure Hpt.
  rewrite raw_batches_spec, (@forward_all_arrays M f data_loader Hpure Hpt).
  rewrite (@concatenate_ok T M).
  - now rewrite concat_rows_arrays, Hord.
  - destruct data_loader; [simpl in Hord; congruence | discriminate].
  - apply Forall_map, Forall_forall. reflexivity.
Qed.

(** X9: for a pure network that works molecule by molecule, the batch size
    and the worker count do not change what [predict] returns, as long as
    the loader yields the dataset in order for both settings. *)
Theorem predict_batching_irrelevant
    (w : World Params) (smis : list string) (bs1 ncpu1 bs2 ncpu2 M : nat)
    (f : Params -> MoleculeDatapoint -> list T)
    (uncertainty : bool) (scaler : option (StandardScaler T))
    (use_gpu : bool) :
  smis <> [] ->
  loader_in_order MoleculeDataLoader (test_data smis) bs1 ncpu1 ->
  loader_in_order MoleculeDataLoader (test_data smis) bs2 ncpu2 ->
  inference_is_pure forward ->
  (forall p batch,
      fst (forward false false p (batch_graph batch)) =
      mkArray M (map (f p) batch)) ->
  snd (predict' w smis bs1 ncpu1 uncertainty scaler use_gpu) =
  snd (predict' w smis bs2 ncpu2 uncertainty scaler use_gpu).
Proof.
  intros Hne H1 H2 Hpure Hpt.
  assert (Hds : test_data smis <> [])
    by (destruct smis; [congruence | discriminate]).
  rewrite !predict_unfold, !_predict_result, !raw_gpu.
  rewrite (@raw_of_pointwise w M f _ _ Hds H1 Hpure Hpt).
  rewrite (@raw_of_pointwise w M f _ _ Hds H2 Hpure Hpt).
  reflexivity.
Qed.

(** X10: end to end, with the uncertainty flag set, an even number M of
    outputs per molecule and a scaler with M/2 standard deviations whose
    inverse transform keeps the shape, [predict] on N >= 1 strings returns a
    pair of N x (M/2) arrays. *)
Theorem predict_uncertainty_shapes
    (w : World Params) (smis : list string) (batch_size ncpu M : nat)
    (sc : StandardScaler T) (use_gpu : bool) :
  smis <> [] ->
  loader_in_order MoleculeDataLoader (test_data smis) batch_size ncpu ->
  row_per_molecule batch_graph forward M ->
  Nat.even M = true ->
  length (stds sc) = M / 2 ->
  keeps_shape sc ->
  exists means variances : ndarray T,
    snd (predict' w smis batch_size ncpu true (Some sc) use_gpu) =
    Ok (Pair means variances) /\
    nrows means = length smis /\ ncols means = M / 2 /\
    nrows variances = length smis /\ ncols variances = M / 2 /\
    wf variances.
Proof.
  intros Hne Hord Hrow Hev Hlen Hshape.
  destruct (raw_concatenates w Hne Hord Hrow)
    as (preds & Hcat & _ & Hn & Hc & Hwf & _).
  assert (Hsq : length (square mul (stds sc)) = ncols (cols_from 1 preds)).
  { unfold square. rewrite length_map, ncols_variances, Hc. exact Hlen. }
  do 2 eexists. split.
  { rewrite predict_unfold, _predict_result, raw_gpu, Hcat.
    rewrite (broadcast_mul_same mul _ _ Hsq). reflexivity. }
  destruct (Hshape (cols_from 0 preds)) as [Hr Hk].
  split; [now rewrite Hr, nrows_cols_from|].
  split; [rewrite Hk, ncols_means, Hc; now apply half_of_even|].
  split; [unfold nrows; simpl; rewrite !length_map; exact Hn|].
  split; [simpl; now rewrite range2_len_odd, Hc|].
  unfold wf; simpl. rewrite map_map. apply Forall_map.
  unfold wf in Hwf. revert Hwf. apply Forall_impl. intros r Hrl.
  rewrite mul_rows_length, stride2_length, Hrl.
  unfold square. rewrite length_map, Hlen, range2_len_odd, Hc.
  apply Nat.min_id.
Qed.

(** X11: predictions stack: for a pure network, [_predict] over the batches
    of one loader followed by those of another returns the rows of the first
    result followed by the rows of the second. *)
Theorem predict_appended_loaders
    (w : World Params) (l1 l2 : list MoleculeDataset) (disable : bool)
    (p1 p2 : ndarray T) :
  inference_is_pure forward ->
  snd (_predict' w l1 false disable None) = Ok (Single p1) ->
  snd (_predict' w l2 false disable None) = Ok (Single p2) ->
  ncols p1 = ncols p2 ->
  snd (_predict' w (l1 ++ l2) false disable None) =
  Ok (Single (mkArray (ncols p1) (rows p1 ++ rows p2))).
Proof.
  intros Hpure H1 H2 Hc.
  rewrite _predict_result in H1, H2 |- *.
  destruct (concatenate (raw w l1)) as [q1|] eqn:C1; [|discriminate].
  destruct (concatenate (raw w l2)) as [q2|] eqn:C2; [|discriminate].
  injection H1 as ->. injection H2 as ->.
  destruct (concatenate_inv _ C1) as (N1 & R1 & F1).
  destruct (concatenate_inv _ C2) as (_ & R2 & F2).
  rewrite raw_batches_spec in *.
  rewrite (@forward_all_app l1 l2 Hpure).
  rewrite (@concatenate_ok T (ncols p1)).
  - now rewrite map_app, concat_app, <- R1, <- R2.
  - intros E. apply app_eq_nil in E. now destruct E.
  - apply Forall_app. split; [exact F1|].
    rewrite Hc. exact F2.
Qed.

End MoreFacts.

(** ** The sample collaborators meet the assumptions *)

Module SampleFacts.

Import Sample.

Lemma batches_from_concat (batch_size : nat) (dataset : MoleculeDataset) :
  forall acc, concat (batches_from batch_size acc dataset) = rev acc ++ dataset.
Proof.
  induction dataset as [|d rest IH]; intros acc.
  - simpl. destruct acc as [|a acc']; simpl; now rewrite ?app_nil_r.
  - cbn [batches_from].
    destruct (length (d :: acc) =? batch_size).
    + cbn [concat]. rewrite IH. simpl. now rewrite <- !app_assoc.
    + rewrite IH. simpl. now rewrite <- app_assoc.
Qed.

Lemma loader_keeps_order (dataset : MoleculeDataset) (batch_size ncpu : nat) :
  loader_in_order loader dataset batch_size ncpu.
Proof. unfold loader_in_order, loader. apply batches_from_concat. Qed.

Lemma loader_empty (batch_size ncpu : nat) : loader [] batch_size ncpu = [].
Proof. reflexivity. Qed.

Lemma row_of_length (M : nat) (p : Z) (mol : list string) :
  length (row_of M p mol) = M.
Proof. unfold row_of. now rewrite length_map, length_seq. Qed.

Lemma forward_row_per_molecule (M : nat) :
  row_per_molecule batch_graph (forward M) M.
Proof.
  intros p batch. simpl. split; [reflexivity|]. split.
  - unfold nrows, batch_graph; simpl. now rewrite !length_map.
  - unfold wf; simpl. apply Forall_map, Forall_forall. intros mol _.
    apply row_of_length.
Qed.

Lemma forward_inference_pure (M : nat) : inference_is_pure (forward M).
Proof. intros p g. reflexivity. Qed.

Lemma scaler_keeps_shape (means sds : list Z) : keeps_shape (scaler means sds).
Proof.
  intros a. split; [|reflexivity].
  unfold nrows; simpl. apply length_map.
Qed.

End SampleFacts.

(** ** The theorems at work on the sample *)

Module Witnesses.

Import Sample SampleFacts.

Local Open Scope Z_scope.

Local Abbreviation batches3 := (loader (test_data smis3) 2 1).
Local Abbreviation preds4 :=
  (mkArray 4 [[6; 7; 8; 9]; [7; 9; 11; 13]; [8; 11; 14; 17]]).
Local Abbreviation preds3 :=
  (mkArray 3 [[6; 7; 8]; [7; 9; 11]; [8; 11; 14]]).

Local Abbreviation sc2 := (scaler [10; 20] [2; 3]).
Local Abbreviation sc4 := (scaler [10; 20; 30; 40] [2; 3; 4; 5]).
Local Abbreviation run4 := (_predict Z.mul batch_graph (forward 4) world0 batches3).
Local Abbreviation run3 := (_predict Z.mul batch_graph (forward 3) world0 batches3).
Local Abbreviation raw4 := (raw_batches batch_graph (forward 4) world0 batches3).
Local Abbreviation raw3 := (raw_batches batch_graph (forward 3) world0 batches3).
Local Abbreviation predict4 := (predict Z.mul batch_graph (forward 4) loader world0).

Lemma predict_uncertainty_no_scaler_splits_columns_witness :
  concatenate raw4 = Ok preds4 /\ wf preds4 /\
  Nat.even (ncols preds4) = true /\
  ncols (cols_from 0 preds4) = 2%nat /\ ncols (cols_from 1 preds4) = 2%nat /\
  snd (run4 true true None) =
  Ok (Pair (mkArray 2%nat [[6; 8]; [7; 11]; [8; 14]])
           (mkArray 2%nat [[7; 9]; [9; 13]; [11; 17]])).
Proof.
  assert (Hcat : concatenate raw4 = Ok preds4) by reflexivity.
  assert (Hwf : wf preds4) by (repeat constructor).
  assert (Hev : Nat.even (ncols preds4) = true) by reflexivity.
  destruct (@predict_uncertainty_no_scaler_splits_columns
              Z Z.mul Z _ batch_graph (forward 4) world0 batches3 true
              preds4 Hcat Hwf Hev)
    as (_ & _ & _ & Hm & _ & _ & Hv & _ & Hres & _).
  repeat split; assumption.
Defined.

Lemma predict_uncertainty_rescales_witness :
  concatenate raw4 = Ok preds4 /\
  length (stds sc2) = (ncols preds4 / 2)%nat /\
  exists variances : ndarray Z,
    snd (run4 true true (Some sc2)) =
    Ok (Pair (inverse_transform sc2 (cols_from 0 preds4)) variances) /\
    rows variances = [[28; 81]; [36; 117]; [44; 153]] /\
    entry variances 1 1 = Some (3 * 3 * 13).
Proof.
  assert (Hcat : concatenate raw4 = Ok preds4) by reflexivity.
  assert (Hlen : length (stds sc2) = (ncols preds4 / 2)%nat) by reflexivity.
  split; [exact Hcat|]. split; [exact Hlen|].
  destruct (@predict_uncertainty_rescales
              Z Z.mul Z _ batch_graph (forward 4) world0 batches3 true
              sc2 preds4 Hcat Hlen)
    as (variances & Hres & _ & _ & Hrows & Hentry).
  exists variances.
  split; [exact Hres|]. split; [exact Hrows|].
  apply (Hentry 1%nat 1%nat 3 13); reflexivity.
Defined.

Lemma predict_inverse_scaled_witness :
  smis3 <> [] /\
  loader_in_order loader (test_data smis3) 2 1 /\
  exists preds out : ndarray Z,
    concatenate raw4 = Ok preds /\
    nrows preds = length smis3 /\ ncols preds = 4%nat /\
    snd (predict4 smis3 2%nat 1%nat false (Some sc4) true) = Ok (Single out) /\
    out = inverse_transform sc4 preds /\
    nrows out = length smis3 /\ ncols out = 4%nat.
Proof.
  assert (Hne : smis3 <> []) by discriminate.
  split; [exact Hne|]. split; [apply loader_keeps_order|].
  apply (@predict_inverse_scaled
           Z Z.mul Z _ batch_graph (forward 4) loader world0 smis3 2 1 4 sc4
           true Hne (loader_keeps_order _ _ _) (forward_row_per_molecule 4)
           (scaler_keeps_shape _ _)).
Defined.

Lemma predict_without_scaler_is_raw_witness :
  concatenate raw4 = Ok preds4 /\
  snd (run4 false true None) = Ok (Single preds4) /\
  snd (run4 true true None) =
  Ok (Pair (mkArray 2%nat [[6; 8]; [7; 11]; [8; 14]])
           (mkArray 2%nat [[7; 9]; [9; 13]; [11; 17]])).
Proof.
  assert (Hcat : concatenate raw4 = Ok preds4) by reflexivity.
  destruct (@predict_without_scaler_is_raw
              Z Z.mul Z _ batch_graph (forward 4) world0 batches3 true
              preds4 Hcat) as (Hs & Hp & _ & _).
  repeat split; assumption.
Defined.


Lemma predict_is_inference_only_witness :
  inference_is_pure (forward 4) /\
  forward_calls (fst (run4 true true None)) =
  [mkCall false false; mkCall false false] /\
  parameters (fst (run4 true true None)) = 5 /\
  grad_enabled (fst (run4 true true None)) = true.
Proof.
  split; [apply forward_inference_pure|].
  apply (@predict_is_inference_only
           Z Z.mul Z _ batch_graph (forward 4) world0 batches3 true true None
           (forward_inference_pure 4)).
Defined.

Lemma predict_empty_input_fails_witness :
  loader [] 2 1 = [] /\
  snd (predict4 [] 2%nat 1%nat false None true) = Err ValueError.
Proof.
  split; [reflexivity|].
  apply (@predict_empty_input_fails
           Z Z.mul Z _ batch_graph (forward 4) loader world0 2 1 false None
           true eq_refl).
Defined.

Lemma predict_odd_columns_uneven_split_witness :
  concatenate raw3 = Ok preds3 /\ wf preds3 /\
  Nat.odd (ncols preds3) = true /\
  exists means variances : ndarray Z,
    snd (run3 true true None) = Ok (Pair means variances) /\
    means = mkArray 2%nat [[6; 8]; [7; 11]; [8; 14]] /\
    variances = mkArray 1%nat [[7]; [9]; [11]] /\
    ncols means = (ncols variances + 1)%nat.
Proof.
  assert (Hcat : concatenate raw3 = Ok preds3) by reflexivity.
  assert (Hwf : wf preds3) by (repeat constructor).
  assert (Hodd : Nat.odd (ncols preds3) = true) by reflexivity.
  split; [exact Hcat|]. split; [exact Hwf|]. split; [exact Hodd|].
  destruct (@predict_odd_columns_uneven_split
              Z Z.mul Z _ batch_graph (forward 3) world0 batches3 true
              preds3 Hcat Hwf Hodd)
    as (means & variances & Hres & Hm & Hv & _ & _ & Hone & _).
  exists means, variances.
  split; [exact Hres|]. split; [exact Hm|]. split; [exact Hv|]. exact Hone.
Defined.

End Witnesses.

(** ** Where a claim of the specification fails *)

Module Counterexamples.

Import Sample.

Local Open Scope Z_scope.

Local Abbreviation batches3 := (loader (test_data smis3) 2 1).
Local Abbreviation preds4 :=
  (mkArray 4 [[6; 7; 8; 9]; [7; 9; 11; 13]; [8; 11; 14; 17]]).
Local Abbreviation preds6 :=
  (mkArray 6 [[6; 7; 8; 9; 10; 11]; [7; 9; 11; 13; 15; 17];
              [8; 11; 14; 17; 20; 23]]).
Local Abbreviation sc2 := (scaler [10; 20] [2; 3]).

(** C1 as the specification has it fails with a scaler.  Three molecules,
    four raw columns and the scaler with means 10, 20 and standard
    deviations 2, 3: the returned means are not columns 0 and 2 of the raw
    output, nor the returned variances its columns 1 and 3.  With six raw
    columns and the same scaler nothing is returned at all. *)
Lemma predict_uncertainty_with_scaler_not_raw_columns :
  concatenate (raw_batches batch_graph (forward 4) world0 batches3) =
  Ok preds4 /\
  cols_from 0 preds4 = mkArray 2%nat [[6; 8]; [7; 11]; [8; 14]] /\
  cols_from 1 preds4 = mkArray 2%nat [[7; 9]; [9; 13]; [11; 17]] /\
  snd (_predict Z.mul batch_graph (forward 4) world0 batches3 true true
                (Some sc2)) =
  Ok (Pair (mkArray 2%nat [[22; 44]; [24; 53]; [26; 62]])
           (mkArray 2%nat [[28; 81]; [36; 117]; [44; 153]])) /\
  snd (_predict Z.mul batch_graph (forward 4) world0 batches3 true true
                (Some sc2)) <>
  Ok (Pair (cols_from 0 preds4) (cols_from 1 preds4)) /\
  concatenate (raw_batches batch_graph (forward 6) world0 batches3) =
  Ok preds6 /\
  snd (_predict Z.mul batch_graph (forward 6) world0 batches3 true true
                (Some sc2)) = Err ValueError.
Proof.
  split; [reflexivity|]. split; [reflexivity|]. split; [reflexivity|].
  split; [reflexivity|].
  split; [intros H; vm_compute in H; discriminate H|].
  split; reflexivity.
Qed.

End Counterexamples.

(** ** The further properties at work on the sample *)

Module MoreWitnesses.

Import Sample SampleFacts.

Local Open Scope Z_scope.

Local Abbreviation batches3 := (loader (test_data smis3) 2 1).
Local Abbreviation preds4 :=
  (mkArray 4 [[6; 7; 8; 9]; [7; 9; 11; 13]; [8; 11; 14; 17]]).
Local Abbreviation preds2 := (mkArray 2 [[6; 7]; [7; 9]; [8; 11]]).
Local Abbreviation preds6 :=
  (mkArray 6 [[6; 7; 8; 9; 10; 11]; [7; 9; 11; 13; 15; 17];
              [8; 11; 14; 17; 20; 23]]).
Local Abbreviation run M := (_predict Z.mul batch_graph (forward M) world0 batches3).
Local Abbreviation raw M := (raw_batches batch_graph (forward M) world0 batches3).
Local Abbreviation predict4 := (predict Z.mul batch_graph (forward 4) loader).
Local Abbreviation row4 := (fun (p : Z) (d : MoleculeDatapoint) => row_of 4 p (smiles d)).
(** A network whose number of columns follows the size of the batch. *)
Local Abbreviation ragged :=
  (fun (tr g : bool) (p : Z) (bg : list (list string)) =>
     forward (length bg) tr g p bg).

Lemma forward4_pointwise (p : Z) (batch : MoleculeDataset) :
  fst (forward 4 false false p (batch_graph batch)) =
  mkArray 4 (map (row4 p) batch).
Proof. unfold forward, batch_graph. simpl. now rewrite map_map. Qed.

Lemma predict_split_is_lossless_witness :
  concatenate (raw 4%nat) = Ok preds4 /\
  exists means variances : ndarray Z,
    snd (run 4%nat true true None) = Ok (Pair means variances) /\
    merge_cols means variances = preds4 /\
    (ncols means + ncols variances = ncols preds4)%nat.
Proof.
  assert (Hcat : concatenate (raw 4%nat) = Ok preds4) by reflexivity.
  split; [exact Hcat|].
  apply (@predict_split_is_lossless
           Z Z.mul Z _ batch_graph (forward 4) world0 batches3 true preds4 Hcat).
Defined.

Lemma predict_mixed_widths_fail_witness :
  ncols (mkArray 2 [[6; 7]; [7; 9]]) <> ncols (mkArray 1 [[8]]) /\
  snd (_predict Z.mul batch_graph ragged world0 batches3 false true None) =
  Err ValueError.
Proof.
  assert (Hne : ncols (mkArray 2 [[6; 7]; [7; 9]]) <> ncols (mkArray 1 [[8]]))
    by discriminate.
  split; [exact Hne|].
  apply (@predict_mixed_widths_fail
           Z Z.mul Z _ batch_graph ragged world0 batches3 false true None
           (mkArray 2 [[6; 7]; [7; 9]]) (mkArray 1 [[8]])).
  - left. reflexivity.
  - right. left. reflexivity.
  - exact Hne.
Defined.

Lemma predict_stds_mismatch_fails_witness :
  concatenate (raw 6%nat) = Ok preds6 /\
  snd (run 6%nat true true (Some (scaler [10; 20] [2; 3]))) = Err ValueError.
Proof.
  assert (Hcat : concatenate (raw 6%nat) = Ok preds6) by reflexivity.
  split; [exact Hcat|].
  apply (@predict_stds_mismatch_fails
           Z Z.mul Z _ batch_graph (forward 6) world0 batches3 true
           (scaler [10; 20] [2; 3]) preds6 Hcat); discriminate.
Defined.

Lemma predict_single_std_scales_all_witness :
  concatenate (raw 4%nat) = Ok preds4 /\
  exists variances : ndarray Z,
    snd (run 4%nat true true (Some (scaler [10] [3]))) =
    Ok (Pair (inverse_transform (scaler [10] [3]) (cols_from 0 preds4))
             variances) /\
    entry variances 2 1 = Some (3 * 3 * 17).
Proof.
  assert (Hcat : concatenate (raw 4%nat) = Ok preds4) by reflexivity.
  split; [exact Hcat|].
  destruct (@predict_single_std_scales_all
              Z Z.mul Z _ batch_graph (forward 4) world0 batches3 true
              (scaler [10] [3]) preds4 3 Hcat eq_refl)
    as (variances & Hres & _ & _ & Hentry); [discriminate|].
  exists variances. split; [exact Hres|].
  apply (Hentry 2%nat 1%nat 17). reflexivity.
Defined.

Lemma predict_single_variance_column_widens_witness :
  concatenate (raw 2%nat) = Ok preds2 /\ wf preds2 /\
  ncols preds2 = 2%nat /\
  exists variances : ndarray Z,
    snd (run 2%nat true true (Some (scaler [10; 20; 30] [2; 3; 4]))) =
    Ok (Pair (inverse_transform (scaler [10; 20; 30] [2; 3; 4])
                                (cols_from 0 preds2))
             variances) /\
    ncols variances = 3%nat /\
    entry variances 1 2 = Some (4 * 4 * 9).
Proof.
  assert (Hcat : concatenate (raw 2%nat) = Ok preds2) by reflexivity.
  assert (Hwf : wf preds2) by (repeat constructor).
  split; [exact Hcat|]. split; [exact Hwf|]. split; [reflexivity|].
  destruct (@predict_single_variance_column_widens
              Z Z.mul Z _ batch_graph (forward 2) world0 batches3 true
              (scaler [10; 20; 30] [2; 3; 4]) preds2 Hcat Hwf eq_refl)
    as (variances & Hres & _ & Hk & Hentry); [discriminate|].
  exists variances. split; [exact Hres|]. split; [exact Hk|].
  apply (Hentry 1%nat 2%nat 4 9); reflexivity.
Defined.

Lemma predict_ignores_initial_modes_witness :
  parameters world0 = parameters (mkWorld false CPU 5 false []) /\
  device world0 = device (mkWorld false CPU 5 false []) /\
  snd (predict4 world0 smis3 2%nat 1%nat true None true) =
  snd (predict4 (mkWorld false CPU 5 false []) smis3 2%nat 1%nat true
                None true).
Proof.
  split; [reflexivity|]. split; [reflexivity|].
  apply (@predict_ignores_initial_modes
           Z Z.mul Z _ batch_graph (forward 4) loader world0
           (mkWorld false CPU 5 false []) smis3 2 1 true None true
           eq_refl eq_refl).
Defined.

Lemma predict_is_repeatable_witness :
  inference_is_pure (forward 4) /\
  snd (predict4 (fst (predict4 world0 ["CO"%string] 1%nat 1%nat false None true))
                smis3 2%nat 1%nat true None true) =
  snd (predict4 world0 smis3 2%nat 1%nat true None true).
Proof.
  split; [apply forward_inference_pure|].
  apply (@predict_is_repeatable
           Z Z.mul Z _ batch_graph (forward 4) loader world0 ["CO"%string]
           smis3 1 2 1 1 false true None None true
           (forward_inference_pure 4)).
Defined.

Lemma predict_batching_irrelevant_witness :
  smis3 <> [] /\
  loader (test_data smis3) 1 1 <> loader (test_data smis3) 2 4 /\
  snd (predict4 world0 smis3 1%nat 1%nat true None false) =
  snd (predict4 world0 smis3 2%nat 4%nat true None false).
Proof.
  assert (Hne : smis3 <> []) by discriminate.
  split; [exact Hne|]. split; [discriminate|].
  apply (@predict_batching_irrelevant
           Z Z.mul Z _ batch_graph (forward 4) loader world0 smis3 1 1 2 4 4
           row4 true None false Hne (loader_keeps_order _ _ _)
           (loader_keeps_order _ _ _) (forward_inference_pure 4)
           forward4_pointwise).
Defined.

Lemma predict_uncertainty_shapes_witness :
  smis3 <> [] /\ Nat.even 4 = true /\
  length (stds (scaler [10; 20] [2; 3])) = (4 / 2)%nat /\
  exists means variances : ndarray Z,
    snd (predict4 world0 smis3 2%nat 1%nat true
                  (Some (scaler [10; 20] [2; 3])) true) =
    Ok (Pair means variances) /\
    nrows means = 3%nat /\ ncols means = 2%nat /\
    nrows variances = 3%nat /\ ncols variances = 2%nat /\
    wf variances.
Proof.
  assert (Hne : smis3 <> []) by discriminate.
  split; [exact Hne|]. split; [reflexivity|]. split; [reflexivity|].
  apply (@predict_uncertainty_shapes
           Z Z.mul Z _ batch_graph (forward 4) loader world0 smis3 2 1 4
           (scaler [10; 20] [2; 3]) true Hne (loader_keeps_order _ _ _)
           (forward_row_per_molecule 4) eq_refl eq_refl
           (scaler_keeps_shape _ _)).
Defined.

Lemma predict_appended_loaders_witness :
  inference_is_pure (forward 4) /\
  snd (_predict Z.mul batch_graph (forward 4) world0
                (batches3 ++ loader (test_data ["N"%string]) 2 1)
                false true None) =
  Ok (Single (mkArray 4 ([[6; 7; 8; 9]; [7; 9; 11; 13]; [8; 11; 14; 17]] ++
                         [[6; 7; 8; 9]]))).
Proof.
  split; [apply forward_inference_pure|].
  apply (@predict_appended_loaders
           Z Z.mul Z _ batch_graph (forward 4) world0 batches3
           (loader (test_data ["N"%string]) 2 1) true preds4
           (mkArray 4 [[6; 7; 8; 9]]) (forward_inference_pure 4)
           eq_refl eq_refl eq_refl).
Defined.

End MoreWitnesses.
